(** * rv6 userland: the system-call shim layer

    A shallow embedding of [userland/include/uapi/syscall.h] and
    [userland/lib/write.c].

    The layer is six [static inline] shims [__syscall0] .. [__syscall5]
    over one external primitive [__syscall6] (the [ecall] trap, written
    per architecture), and the libc-style wrapper [write].

    Integers are modelled as [Z] with the wrap-around of every conversion
    written out.  The target is riscv64 (LP64): [int] is 32 bits wide,
    [long], [unsigned long] and pointers are 64 bits wide.  The external
    primitive is an effect: programs are trees of traps, and a kernel is
    a handler that answers each trap and threads its own state.  Module
    [Process] reads the same source as code of a process with memory,
    to state what the layer does not keep there. *)

From Stdlib Require Import ZArith Lia List.
Import ListNotations.
Local Open Scope Z_scope.

Set Implicit Arguments.

(** ** C integer types and conversions *)

Module CInt.

(** Widths of the LP64 data model. *)
Definition int_bits : Z := 32.
Definition long_bits : Z := 64.

(** The value ranges of the C types that occur in the source. *)
Definition signed_range (w z : Z) : Prop := - 2 ^ (w - 1) <= z < 2 ^ (w - 1).
Definition unsigned_range (w z : Z) : Prop := 0 <= z < 2 ^ w.

Definition is_int (z : Z) : Prop := signed_range int_bits z.
Definition is_long (z : Z) : Prop := signed_range long_bits z.
Definition is_ulong (z : Z) : Prop := unsigned_range long_bits z.

(** The [w]-bit pattern of an integer (its value modulo [2^w]). *)
Definition bits (w z : Z) : Z := z mod 2 ^ w.

(** Conversion to a signed [w]-bit type: the unique value of the
    signed range that is congruent to [z] modulo [2^w]. *)
Definition to_signed (w z : Z) : Z :=
  (z + 2 ^ (w - 1)) mod 2 ^ w - 2 ^ (w - 1).

(** Conversion of an [int] (an argument of type [int], or an integer
    constant such as [0]) to [long]: implicit at a call through a
    prototype, explicit in [(long)fd]. *)
Definition long_of_int (i : Z) : Z := to_signed long_bits i.

(** [(long)count] for [unsigned long count]. *)
Definition long_of_ulong (u : Z) : Z := to_signed long_bits u.

End CInt.

(** Pointers are their 64-bit address; the null pointer is address 0. *)
Module Ptr.

Definition ptr : Type := Z.
Definition NULL : ptr := 0.
Definition is_ptr (p : ptr) : Prop := CInt.unsigned_range CInt.long_bits p.

(** [(long)buf]: the address, reinterpreted as a signed word. *)
Definition long_of_ptr (p : ptr) : Z := CInt.to_signed CInt.long_bits p.

End Ptr.

Import CInt Ptr.

Arguments to_signed : simpl never.

(** ** The trap effect *)

(** One request to the architecture primitive: the syscall number and
    the six argument words, in the order of the prototype
    [long __syscall6(long n, long a0, long a1, long a2, long a3, long a4, long a5)]. *)
Record call : Type := Call {
  call_n : Z;
  call_a0 : Z; call_a1 : Z; call_a2 : Z;
  call_a3 : Z; call_a4 : Z; call_a5 : Z
}.

(** The six argument slots of a request, in order. *)
Definition call_args (c : call) : list Z :=
  [call_a0 c; call_a1 c; call_a2 c; call_a3 c; call_a4 c; call_a5 c].

(** A userland computation: it returns, or traps into the kernel and
    continues with the result word of the trap. *)
Inductive prog (A : Type) : Type :=
| Ret (a : A)
| Trap (c : call) (k : Z -> prog A).

Arguments Ret {A} a.
Arguments Trap {A} c k.

Fixpoint bind {A B : Type} (p : prog A) (f : A -> prog B) : prog B :=
  match p with
  | Ret a => f a
  | Trap c k => Trap c (fun r => bind (k r) f)
  end.

(** ** uapi/syscall.h *)

Definition __NR_write : Z := 0.

(** [long __syscall6(...)] is only declared in the header: it is the trap. *)
Definition __syscall6 (n a0 a1 a2 a3 a4 a5 : Z) : prog Z :=
  Trap (Call n a0 a1 a2 a3 a4 a5) (fun r => Ret r).

Definition __syscall0 (n : Z) : prog Z :=
  __syscall6 n (long_of_int 0) (long_of_int 0) (long_of_int 0)
               (long_of_int 0) (long_of_int 0) (long_of_int 0).

Definition __syscall1 (n a0 : Z) : prog Z :=
  __syscall6 n a0 (long_of_int 0) (long_of_int 0)
                  (long_of_int 0) (long_of_int 0) (long_of_int 0).

Definition __syscall2 (n a0 a1 : Z) : prog Z :=
  __syscall6 n a0 a1 (long_of_int 0)
                     (long_of_int 0) (long_of_int 0) (long_of_int 0).

Definition __syscall3 (n a0 a1 a2 : Z) : prog Z :=
  __syscall6 n a0 a1 a2 (long_of_int 0) (long_of_int 0) (long_of_int 0).

Definition __syscall4 (n a0 a1 a2 a3 : Z) : prog Z :=
  __syscall6 n a0 a1 a2 a3 (long_of_int 0) (long_of_int 0).

Definition __syscall5 (n a0 a1 a2 a3 a4 : Z) : prog Z :=
  __syscall6 n a0 a1 a2 a3 a4 (long_of_int 0).

(** ** lib/write.c *)

Definition write (fd : Z) (buf : ptr) (count : Z) : prog Z :=
  __syscall3 (long_of_int __NR_write)
             (long_of_int fd) (long_of_ptr buf) (long_of_ulong count).

(** The entry points of the layer, each applied to its arguments. *)
Inductive entry : Type :=
| Syscall0 (n : Z)
| Syscall1 (n a0 : Z)
| Syscall2 (n a0 a1 : Z)
| Syscall3 (n a0 a1 a2 : Z)
| Syscall4 (n a0 a1 a2 a3 : Z)
| Syscall5 (n a0 a1 a2 a3 a4 : Z)
| Write (fd : Z) (buf : ptr) (count : Z).

Definition exec (e : entry) : prog Z :=
  match e with
  | Syscall0 n => __syscall0 n
  | Syscall1 n a0 => __syscall1 n a0
  | Syscall2 n a0 a1 => __syscall2 n a0 a1
  | Syscall3 n a0 a1 a2 => __syscall3 n a0 a1 a2
  | Syscall4 n a0 a1 a2 a3 => __syscall4 n a0 a1 a2 a3
  | Syscall5 n a0 a1 a2 a3 a4 => __syscall5 n a0 a1 a2 a3 a4
  | Write fd buf count => write fd buf count
  end.

(** ** Running a computation against a kernel *)

(** A kernel answers a request in its current state with a result word
    and its next state.  Nothing is assumed about it. *)
Definition kernel (K : Type) : Type := call -> K -> Z * K.

(** What a run produces: the value returned to the caller, the state the
    kernel is left in, and the requests that trapped, oldest first. *)
Record outcome (K A : Type) : Type := Outcome {
  result : A;
  final : K;
  trace : list call
}.

Fixpoint run {K A : Type} (h : kernel K) (p : prog A) (s : K) : outcome K A :=
  match p with
  | Ret a => Outcome a s []
  | Trap c k =>
      let o := run h (k (fst (h c s))) (snd (h c s)) in
      Outcome (result o) (final o) (c :: trace o)
  end.

(** The outcome of trapping exactly once with request [c] and handing
    the kernel's word back untouched. *)
Definition forwarded {K : Type} (h : kernel K) (c : call) (s : K) : outcome K Z :=
  Outcome (fst (h c s)) (snd (h c s)) [c].

(** A primitive of fixed behaviour: its result word is determined by the
    request alone, whatever state the kernel is in. *)
Definition fixed_behaviour {K : Type} (h : kernel K) : Prop :=
  forall c s s', fst (h c s) = fst (h c s').

(** Example kernels, used to instantiate the statements below. *)

(** Accepts every request in full: answers with the third argument word
    (the byte count of a write) and counts the traps it has served. *)
Definition counting_kernel : kernel nat :=
  fun c served => (call_a2 c, S served).

(** Refuses every request with the same error word. *)
Definition failing_kernel (err : Z) : kernel unit :=
  fun _ s => (err, s).

(** ** Typed calls and callers *)

(** The seven words of a request: the number, then the argument slots. *)
Definition call_words (c : call) : list Z := call_n c :: call_args c.

(** An entry point applied to arguments of its parameter types: every
    parameter of a shim is a [long]; [write] takes an [int], a pointer
    and an [unsigned long]. *)
Definition well_typed (e : entry) : Prop :=
  match e with
  | Syscall0 n => is_long n
  | Syscall1 n a0 => is_long n /\ is_long a0
  | Syscall2 n a0 a1 => is_long n /\ is_long a0 /\ is_long a1
  | Syscall3 n a0 a1 a2 => is_long n /\ is_long a0 /\ is_long a1 /\ is_long a2
  | Syscall4 n a0 a1 a2 a3 =>
      is_long n /\ is_long a0 /\ is_long a1 /\ is_long a2 /\ is_long a3
  | Syscall5 n a0 a1 a2 a3 a4 =>
      is_long n /\ is_long a0 /\ is_long a1 /\ is_long a2 /\ is_long a3 /\ is_long a4
  | Write fd buf count => is_int fd /\ is_ptr buf /\ is_ulong count
  end.

(** The request a computation makes first, when it traps at all. *)
Definition first_request {A : Type} (p : prog A) : list call :=
  match p with
  | Ret _ => []
  | Trap c _ => [c]
  end.

(** The first requests of a list of calls, call by call. *)
Definition requests (es : list entry) : list call :=
  flat_map (fun e => first_request (exec e)) es.

(** A caller that makes the calls [es] one after the other and collects
    the words they return. *)
Fixpoint sequence (es : list entry) : prog (list Z) :=
  match es with
  | [] => Ret []
  | e :: rest =>
      bind (exec e) (fun r => bind (sequence rest) (fun rs => Ret (r :: rs)))
  end.

(** The kernel alone, answering a list of requests in order. *)
Fixpoint serve {K : Type} (h : kernel K) (cs : list call) (s : K) : list Z * K :=
  match cs with
  | [] => ([], s)
  | c :: rest =>
      let served := serve h rest (snd (h c s)) in
      (fst (h c s) :: fst served, snd served)
  end.

(** ** The layer inside a process that has memory *)

(** Trap trees cannot speak of state held in userland.  C code can hold
    some, in globals and statics, so the same source is read once more
    as code of a process whose memory it may load from and store to, and
    which the kernel may change while it serves a trap. *)
Module Process.

(** The memory of the process: the word at each address. *)
Definition mem : Type := Z -> Z.

Definition store (m : mem) (a v : Z) : mem :=
  fun a' => if a' =? a then v else m a'.

(** An access userland code makes to its memory. *)
Inductive access : Type :=
| Read (a : Z)
| Written (a v : Z).

(** Userland code: it returns, traps, loads a word or stores one. *)
Inductive proc (A : Type) : Type :=
| Return (a : A)
| Ecall (c : call) (k : Z -> proc A)
| Load (a : Z) (k : Z -> proc A)
| Store (a v : Z) (k : proc A).

Arguments Return {A} a.
Arguments Ecall {A} c k.
Arguments Load {A} a k.
Arguments Store {A} a v k.

Fixpoint bind {A B : Type} (p : proc A) (f : A -> proc B) : proc B :=
  match p with
  | Return a => f a
  | Ecall c k => Ecall c (fun r => bind (k r) f)
  | Load a k => Load a (fun v => bind (k v) f)
  | Store a v k => Store a v (bind k f)
  end.

(** uapi/syscall.h.  No function of the header names a global or a
    static, or dereferences anything. *)

Definition __syscall6 (n a0 a1 a2 a3 a4 a5 : Z) : proc Z :=
  Ecall (Call n a0 a1 a2 a3 a4 a5) (fun r => Return r).

Definition __syscall0 (n : Z) : proc Z :=
  __syscall6 n (long_of_int 0) (long_of_int 0) (long_of_int 0)
               (long_of_int 0) (long_of_int 0) (long_of_int 0).

Definition __syscall1 (n a0 : Z) : proc Z :=
  __syscall6 n a0 (long_of_int 0) (long_of_int 0)
                  (long_of_int 0) (long_of_int 0) (long_of_int 0).

Definition __syscall2 (n a0 a1 : Z) : proc Z :=
  __syscall6 n a0 a1 (long_of_int 0)
                     (long_of_int 0) (long_of_int 0) (long_of_int 0).

Definition __syscall3 (n a0 a1 a2 : Z) : proc Z :=
  __syscall6 n a0 a1 a2 (long_of_int 0) (long_of_int 0) (long_of_int 0).

Definition __syscall4 (n a0 a1 a2 a3 : Z) : proc Z :=
  __syscall6 n a0 a1 a2 a3 (long_of_int 0) (long_of_int 0).

Definition __syscall5 (n a0 a1 a2 a3 a4 : Z) : proc Z :=
  __syscall6 n a0 a1 a2 a3 a4 (long_of_int 0).

(** lib/write.c.  [buf] is cast, never dereferenced. *)

Definition write (fd : Z) (buf : ptr) (count : Z) : proc Z :=
  __syscall3 (long_of_int __NR_write)
             (long_of_int fd) (long_of_ptr buf) (long_of_ulong count).

Definition exec (e : entry) : proc Z :=
  match e with
  | Syscall0 n => __syscall0 n
  | Syscall1 n a0 => __syscall1 n a0
  | Syscall2 n a0 a1 => __syscall2 n a0 a1
  | Syscall3 n a0 a1 a2 => __syscall3 n a0 a1 a2
  | Syscall4 n a0 a1 a2 a3 => __syscall4 n a0 a1 a2 a3
  | Syscall5 n a0 a1 a2 a3 a4 => __syscall5 n a0 a1 a2 a3 a4
  | Write fd buf count => write fd buf count
  end.

(** What a run shows: the value returned, the kernel state and the
    memory it leaves, the requests that trapped and the accesses the
    code itself made to memory, both oldest first. *)
Record observed (K A : Type) : Type := Observed {
  returned : A;
  left_kernel : K;
  left_mem : mem;
  traps : list call;
  accesses : list access
}.

(** The kernel sees its own state and the memory of the process, and
    may change both. *)
Fixpoint run {K A : Type} (h : kernel (K * mem)) (p : proc A) (s : K) (m : mem)
  : observed K A :=
  match p with
  | Return a => Observed a s m [] []
  | Ecall c k =>
      let ans := h c (s, m) in
      let o := run h (k (fst ans)) (fst (snd ans)) (snd (snd ans)) in
      Observed (returned o) (left_kernel o) (left_mem o) (c :: traps o) (accesses o)
  | Load a k =>
      let o := run h (k (m a)) s m in
      Observed (returned o) (left_kernel o) (left_mem o) (traps o)
               (Read a :: accesses o)
  | Store a v k =>
      let o := run h k s (store m a v) in
      Observed (returned o) (left_kernel o) (left_mem o) (traps o)
               (Written a v :: accesses o)
  end.

(** Two calls of the same code, with other code of the process running
    in between; returns both results. *)
Definition twice_around {A B : Type} (p : proc A) (between : proc B) : proc (A * A) :=
  bind p (fun r1 => bind between (fun _ => bind p (fun r2 => Return (r1, r2)))).

(** A kernel that answers [f] of the request, whatever its state and
    the memory; it counts the traps it serves and leaves its answer in
    memory at the address in the second argument slot. *)
Definition answering (f : call -> Z) : kernel (nat * mem) :=
  fun c st => (f c, (S (fst st), store (snd st) (call_a1 c) (f c))).

(** Not code of the layer, for comparison: a wrapper that numbers its
    requests with a counter kept in the global at address [g]. *)
Definition numbered (g n : Z) : proc Z :=
  Load g (fun v => Store g (v + 1) (__syscall1 n v)).

End Process.

(** ** Facts about the conversions *)

Section Conversions.

Variable w : Z.
Hypothesis w_pos : 0 < w.

Lemma pow2_split : 2 ^ w = 2 * 2 ^ (w - 1).
Proof.
  replace w with (Z.succ (w - 1)) at 1 by lia.
  apply Z.pow_succ_r; lia.
Qed.

Lemma pow2_half_pos : 0 < 2 ^ (w - 1).
Proof. apply Z.pow_pos_nonneg; lia. Qed.

(** A value that already fits the signed type is unchanged. *)
Lemma to_signed_fits z : signed_range w z -> to_signed w z = z.
Proof.
  unfold signed_range, to_signed; intros Hz.
  rewrite Z.mod_small; [lia | rewrite pow2_split; lia].
Qed.

(** A value of the upper half of the unsigned range wraps by [2^w]. *)
Lemma to_signed_wraps z :
  2 ^ (w - 1) <= z < 2 ^ w -> to_signed w z = z - 2 ^ w.
Proof.
  unfold to_signed; intros Hz.
  pose proof pow2_split as Hs.
  replace (z + 2 ^ (w - 1)) with ((z - 2 ^ (w - 1)) + 1 * 2 ^ w) by lia.
  rewrite Z_mod_plus_full, Z.mod_small; lia.
Qed.

(** The conversion always lands in the signed range ... *)
Lemma to_signed_range z : signed_range w (to_signed w z).
Proof.
  unfold signed_range, to_signed.
  pose proof pow2_split as Hs; pose proof pow2_half_pos as Hp.
  pose proof (Z.mod_pos_bound (z + 2 ^ (w - 1)) (2 ^ w)) as Hb.
  lia.
Qed.

(** ... and never changes the [w]-bit pattern. *)
Lemma bits_to_signed z : bits w (to_signed w z) = bits w z.
Proof.
  unfold bits, to_signed.
  rewrite Zminus_mod_idemp_l; f_equal; lia.
Qed.

Lemma bits_unsigned z : unsigned_range w z -> bits w z = z.
Proof. unfold bits, unsigned_range; intros Hz; apply Z.mod_small; lia. Qed.

(** Bit by bit: the low [w] bits of a converted value are the bits of
    the original. *)
Lemma testbit_to_signed z i :
  0 <= i < w -> Z.testbit (to_signed w z) i = Z.testbit z i.
Proof.
  intros Hi.
  rewrite <- (Z.mod_pow2_bits_low (to_signed w z) w i) by lia.
  rewrite <- (Z.mod_pow2_bits_low z w i) by lia.
  f_equal; apply bits_to_signed.
Qed.

(** Every bit of a signed [w]-bit value from position [w-1] upwards is
    a copy of its sign bit. *)
Lemma testbit_sign z i :
  signed_range w z -> w - 1 <= i -> Z.testbit z i = (z <? 0).
Proof.
  unfold signed_range; intros Hz Hi.
  destruct (Z.ltb_spec z 0) as [Hneg | Hpos].
  - replace z with (Z.lnot (- z - 1)) by (unfold Z.lnot; lia).
    rewrite Z.lnot_spec by lia.
    rewrite <- (Z.mod_small (- z - 1) (2 ^ (w - 1))) by lia.
    rewrite Z.mod_pow2_bits_high by lia; reflexivity.
  - rewrite <- (Z.mod_small z (2 ^ (w - 1))) by lia.
    apply Z.mod_pow2_bits_high; lia.
Qed.

End Conversions.

Lemma long_of_int_zero : long_of_int 0 = 0.
Proof. reflexivity. Qed.

Lemma long_of_int_NR_write : long_of_int __NR_write = __NR_write.
Proof. reflexivity. Qed.

Lemma is_int_is_long z : is_int z -> is_long z.
Proof.
  unfold is_int, is_long, signed_range, int_bits, long_bits; simpl; lia.
Qed.

(** Widening [int] to [long] keeps the value. *)
Lemma long_of_int_value fd : is_int fd -> long_of_int fd = fd.
Proof.
  intros H; apply to_signed_fits; [reflexivity | apply is_int_is_long, H].
Qed.

(** Widening [int] to [long] is sign extension of the bit pattern: the
    low 32 bits are kept and bits 32..63 all copy bit 31. *)
Lemma long_of_int_sign_extends fd i :
  is_int fd -> 0 <= i < long_bits ->
  Z.testbit (bits long_bits (long_of_int fd)) i =
  Z.testbit (bits int_bits fd) (Z.min i (int_bits - 1)).
Proof.
  intros Hfd Hi; unfold bits.
  rewrite long_of_int_value by assumption.
  rewrite !Z.mod_pow2_bits_low by (unfold int_bits, long_bits in *; lia).
  destruct (Z.le_ge_cases i (int_bits - 1)) as [Hlow | Hhigh].
  - rewrite Z.min_l by lia; reflexivity.
  - rewrite Z.min_r by lia.
    assert (Hw : 0 < int_bits) by reflexivity.
    rewrite (testbit_sign Hw Hfd Hhigh), (testbit_sign Hw Hfd (Z.le_refl _)).
    reflexivity.
Qed.

(** ** Facts about runs *)

Lemma run_syscall6 K (h : kernel K) s n a0 a1 a2 a3 a4 a5 :
  run h (__syscall6 n a0 a1 a2 a3 a4 a5) s =
  forwarded h (Call n a0 a1 a2 a3 a4 a5) s.
Proof. reflexivity. Qed.

Lemma run_write K (h : kernel K) s fd buf count :
  run h (write fd buf count) s =
  forwarded h
    (Call __NR_write (long_of_int fd) (long_of_ptr buf) (long_of_ulong count) 0 0 0) s.
Proof.
  unfold write, __syscall3.
  rewrite long_of_int_NR_write, long_of_int_zero.
  apply run_syscall6.
Qed.

(** Running a sequence is running its parts in order, the second from
    the state the first one left. *)
Lemma run_bind K A B (h : kernel K) (p : prog A) (f : A -> prog B) s :
  run h (bind p f) s =
  let o1 := run h p s in
  let o2 := run h (f (result o1)) (final o1) in
  Outcome (result o2) (final o2) (trace o1 ++ trace o2).
Proof.
  revert s; induction p as [a | c k IH]; intros s; simpl.
  - destruct (run h (f a) s); reflexivity.
  - rewrite IH; reflexivity.
Qed.

(** Every entry point is one request, fixed by its arguments, whose
    answer is returned as it is. *)
Lemma exec_forwarded (e : entry) :
  exists c, forall K (h : kernel K) s, run h (exec e) s = forwarded h c s.
Proof.
  destruct e; simpl; eexists; intros;
    unfold write, __syscall0, __syscall1, __syscall2,
      __syscall3, __syscall4, __syscall5;
    rewrite long_of_int_zero; apply run_syscall6.
Qed.

(** ** The shims [__syscall0] .. [__syscall5] *)

(** C1: each [__syscallK] calls [__syscall6] with its K arguments in the
    first K slots and zero in the other 6-K; so the one request any
    kernel sees is the zero-padded one.  [__syscall0(42)] is the
    primitive called with (42, 0, 0, 0, 0, 0, 0). *)
Theorem syscallK_zero_padded (n a0 a1 a2 a3 a4 : Z) :
  (__syscall0 n = __syscall6 n 0 0 0 0 0 0 /\
   __syscall1 n a0 = __syscall6 n a0 0 0 0 0 0 /\
   __syscall2 n a0 a1 = __syscall6 n a0 a1 0 0 0 0 /\
   __syscall3 n a0 a1 a2 = __syscall6 n a0 a1 a2 0 0 0 /\
   __syscall4 n a0 a1 a2 a3 = __syscall6 n a0 a1 a2 a3 0 0 /\
   __syscall5 n a0 a1 a2 a3 a4 = __syscall6 n a0 a1 a2 a3 a4 0) /\
  (forall K (h : kernel K) s,
     trace (run h (__syscall0 n) s) = [Call n 0 0 0 0 0 0] /\
     trace (run h (__syscall1 n a0) s) = [Call n a0 0 0 0 0 0] /\
     trace (run h (__syscall2 n a0 a1) s) = [Call n a0 a1 0 0 0 0] /\
     trace (run h (__syscall3 n a0 a1 a2) s) = [Call n a0 a1 a2 0 0 0] /\
     trace (run h (__syscall4 n a0 a1 a2 a3) s) = [Call n a0 a1 a2 a3 0 0] /\
     trace (run h (__syscall5 n a0 a1 a2 a3 a4) s) = [Call n a0 a1 a2 a3 a4 0]) /\
  (forall K (h : kernel K) s,
     map call_args (trace (run h (__syscall0 n) s)) = [[] ++ repeat 0 6] /\
     map call_args (trace (run h (__syscall1 n a0) s)) = [[a0] ++ repeat 0 5] /\
     map call_args (trace (run h (__syscall2 n a0 a1) s)) = [[a0; a1] ++ repeat 0 4] /\
     map call_args (trace (run h (__syscall3 n a0 a1 a2) s)) =
       [[a0; a1; a2] ++ repeat 0 3] /\
     map call_args (trace (run h (__syscall4 n a0 a1 a2 a3) s)) =
       [[a0; a1; a2; a3] ++ repeat 0 2] /\
     map call_args (trace (run h (__syscall5 n a0 a1 a2 a3 a4) s)) =
       [[a0; a1; a2; a3; a4] ++ repeat 0 1]) /\
  (forall K (h : kernel K) s,
     run h (__syscall0 42) s = run h (__syscall6 42 0 0 0 0 0 0) s).
Proof.
  repeat split; reflexivity.
Qed.

(** C3: whatever the kernel, the word a [__syscallK] returns is the word
    [__syscall6] returns for the zero-padded call, which is the word the
    kernel answered: the result is not transformed on the way. *)
Theorem syscallK_result_is_primitive_result
  K (h : kernel K) (s : K) (n a0 a1 a2 a3 a4 : Z) :
  (result (run h (__syscall0 n) s) = result (run h (__syscall6 n 0 0 0 0 0 0) s) /\
   result (run h (__syscall1 n a0) s) = result (run h (__syscall6 n a0 0 0 0 0 0) s) /\
   result (run h (__syscall2 n a0 a1) s) =
     result (run h (__syscall6 n a0 a1 0 0 0 0) s) /\
   result (run h (__syscall3 n a0 a1 a2) s) =
     result (run h (__syscall6 n a0 a1 a2 0 0 0) s) /\
   result (run h (__syscall4 n a0 a1 a2 a3) s) =
     result (run h (__syscall6 n a0 a1 a2 a3 0 0) s) /\
   result (run h (__syscall5 n a0 a1 a2 a3 a4) s) =
     result (run h (__syscall6 n a0 a1 a2 a3 a4 0) s)) /\
  (result (run h (__syscall0 n) s) = fst (h (Call n 0 0 0 0 0 0) s) /\
   result (run h (__syscall1 n a0) s) = fst (h (Call n a0 0 0 0 0 0) s) /\
   result (run h (__syscall2 n a0 a1) s) = fst (h (Call n a0 a1 0 0 0 0) s) /\
   result (run h (__syscall3 n a0 a1 a2) s) = fst (h (Call n a0 a1 a2 0 0 0) s) /\
   result (run h (__syscall4 n a0 a1 a2 a3) s) = fst (h (Call n a0 a1 a2 a3 0 0) s) /\
   result (run h (__syscall5 n a0 a1 a2 a3 a4) s) =
     fst (h (Call n a0 a1 a2 a3 a4 0) s)).
Proof.
  unfold __syscall0, __syscall1, __syscall2, __syscall3, __syscall4, __syscall5.
  rewrite long_of_int_zero, !run_syscall6.
  repeat split.
Qed.

(** ** The wrapper [write] *)

(** C2: [write(fd, buf, count)] is the arity-3 shim applied to
    [__NR_write] and the three arguments converted to words; the kernel
    sees that one request and its answer is what [write] returns.  The
    word for [fd] is [fd]; the words for [buf] and [count] carry the
    64-bit pattern of the address and of the count (and are the address
    and the count themselves below [2^63]).  [write(1, "hi", 2)], with
    the literal at address [buf], traps as (__NR_write, 1, buf, 2, 0, 0, 0). *)
Theorem write_forwards_converted_arguments (fd : Z) (buf : ptr) (count : Z) :
  is_int fd -> is_ptr buf -> is_ulong count ->
  write fd buf count =
    __syscall3 __NR_write (long_of_int fd) (long_of_ptr buf) (long_of_ulong count) /\
  (forall K (h : kernel K) s,
     let c := Call __NR_write (long_of_int fd) (long_of_ptr buf)
                   (long_of_ulong count) 0 0 0 in
     trace (run h (write fd buf count) s) = [c] /\
     result (run h (write fd buf count) s) = fst (h c s)) /\
  long_of_int fd = fd /\
  (is_long (long_of_ptr buf) /\ bits long_bits (long_of_ptr buf) = buf /\
   (buf < 2 ^ 63 -> long_of_ptr buf = buf)) /\
  (is_long (long_of_ulong count) /\ bits long_bits (long_of_ulong count) = count /\
   (count < 2 ^ 63 -> long_of_ulong count = count)) /\
  (buf < 2 ^ 63 ->
   forall K (h : kernel K) s,
     let c := Call __NR_write 1 buf 2 0 0 0 in
     trace (run h (write 1 buf 2) s) = [c] /\
     result (run h (write 1 buf 2) s) = fst (h c s)).
Proof.
  intros Hfd Hbuf Hcount.
  assert (Hw : 0 < long_bits) by reflexivity.
  assert (Hlow : forall z, unsigned_range long_bits z -> z < 2 ^ 63 ->
                           to_signed long_bits z = z).
  { intros z [Hz0 _] Hz; apply to_signed_fits; [exact Hw |].
    unfold signed_range; change (2 ^ (long_bits - 1)) with (2 ^ 63); lia. }
  split; [reflexivity |].
  split; [intros; rewrite run_write; split; reflexivity |].
  split; [apply long_of_int_value, Hfd |].
  split; [| split].
  - split; [apply to_signed_range, Hw |].
    split; [| apply Hlow, Hbuf].
    unfold long_of_ptr; rewrite bits_to_signed.
    apply bits_unsigned, Hbuf.
  - split; [apply to_signed_range, Hw |].
    split; [| apply Hlow, Hcount].
    unfold long_of_ulong; rewrite bits_to_signed.
    apply bits_unsigned, Hcount.
  - intros Hb K h s; rewrite run_write.
    unfold long_of_ptr; rewrite (Hlow buf Hbuf Hb).
    split; reflexivity.
Qed.

(** [write(1, "hi", 2)] with the literal at address 0x10000, against a
    kernel that accepts every write in full. *)
Lemma write_forwards_converted_arguments_witness :
  trace (run counting_kernel (write 1 65536 2) 0%nat) =
    [Call __NR_write 1 65536 2 0 0 0] /\
  result (run counting_kernel (write 1 65536 2) 0%nat) = 2.
Proof.
  assert (Hfd : is_int 1) by (unfold is_int, signed_range; simpl; lia).
  assert (Hbuf : is_ptr 65536) by (unfold is_ptr, unsigned_range; simpl; lia).
  assert (Hcount : is_ulong 2) by (unfold is_ulong, unsigned_range; simpl; lia).
  assert (Hb : 65536 < 2 ^ 63) by (simpl; lia).
  destruct (write_forwards_converted_arguments Hfd Hbuf Hcount)
    as (_ & _ & _ & _ & _ & Hhi).
  exact (Hhi Hb nat counting_kernel 0%nat).
Defined.

(** C4: the number of the write syscall is the constant 0, which is not
    negative, and it is the number of the request [write] makes. *)
Theorem write_uses_NR_write :
  __NR_write = 0 /\ 0 <= __NR_write /\
  forall (fd : Z) (buf : ptr) (count : Z) K (h : kernel K) s,
    map call_n (trace (run h (write fd buf count) s)) = [__NR_write].
Proof.
  split; [reflexivity |].
  split; [unfold __NR_write; lia |].
  intros; rewrite run_write; reflexivity.
Qed.

(** C5: a zero-length [write] traps like any other, with 0 in the count
    slot, and returns the word the kernel answers to that request. *)
Theorem write_zero_count_still_traps (fd : Z) (buf : ptr) K (h : kernel K) (s : K) :
  let c := Call __NR_write (long_of_int fd) (long_of_ptr buf) 0 0 0 0 in
  trace (run h (write fd buf 0) s) = [c] /\
  result (run h (write fd buf 0) s) = fst (h c s) /\
  final (run h (write fd buf 0) s) = snd (h c s).
Proof.
  rewrite run_write; repeat split.
Qed.

(** ** The layer as a whole *)

(** C6: no entry point fails by itself or touches the kernel's answer.
    Each makes one request, fixed by its arguments, and returns the
    answer to it whatever that word is; when the kernel answers with an
    error word, that word comes back, after a single trap. *)
Theorem layer_only_forwards (e : entry) :
  exists c : call,
    (forall K (h : kernel K) s, result (run h (exec e) s) = fst (h c s)) /\
    (forall (err : Z) s,
       result (run (failing_kernel err) (exec e) s) = err /\
       trace (run (failing_kernel err) (exec e) s) = [c]).
Proof.
  destruct (exec_forwarded e) as [c Hc].
  exists c; split; intros; rewrite Hc; repeat split.
Qed.

(** C7: every call of an entry point traps exactly once. *)
Theorem layer_traps_exactly_once (e : entry) K (h : kernel K) (s : K) :
  length (trace (run h (exec e) s)) = 1%nat /\
  exists c, trace (run h (exec e) s) = [c] /\
            result (run h (exec e) s) = fst (h c s) /\
            final (run h (exec e) s) = snd (h c s).
Proof.
  destruct (exec_forwarded e) as [c Hc].
  rewrite Hc; split; [reflexivity |].
  exists c; repeat split.
Qed.

(** Running a sequence in a process is running its parts in order, the
    second from the kernel state and the memory the first one left. *)
Lemma process_run_bind K A B (h : kernel (K * Process.mem))
  (p : Process.proc A) (f : A -> Process.proc B) s m :
  Process.run h (Process.bind p f) s m =
  let o1 := Process.run h p s m in
  let o2 := Process.run h (f (Process.returned o1))
              (Process.left_kernel o1) (Process.left_mem o1) in
  Process.Observed (Process.returned o2) (Process.left_kernel o2)
    (Process.left_mem o2)
    (Process.traps o1 ++ Process.traps o2)
    (Process.accesses o1 ++ Process.accesses o2).
Proof.
  revert s m; induction p as [a | c k IH | a k IH | a v k IH]; intros s m; simpl.
  - destruct (Process.run h (f a) s m); reflexivity.
  - rewrite IH; reflexivity.
  - rewrite IH; reflexivity.
  - rewrite IH; reflexivity.
Qed.

(** In a process, every entry point is one trap and nothing else: no
    load, no store, and the answer handed back. *)
Lemma process_exec_observed (e : entry) :
  exists c, forall K (h : kernel (K * Process.mem)) s m,
    Process.run h (Process.exec e) s m =
    Process.Observed (fst (h c (s, m))) (fst (snd (h c (s, m))))
      (snd (snd (h c (s, m)))) [c] [].
Proof.
  destruct e; eexists; intros; reflexivity.
Qed.

(** The two readings of the source agree: an entry point run in a
    process traps, returns and leaves the kernel and the memory as its
    trap tree does when the memory is counted to the kernel's state. *)
Lemma process_exec_agrees (e : entry) K (h : kernel (K * Process.mem)) s m :
  Process.traps (Process.run h (Process.exec e) s m) = trace (run h (exec e) (s, m)) /\
  Process.returned (Process.run h (Process.exec e) s m) =
    result (run h (exec e) (s, m)) /\
  (Process.left_kernel (Process.run h (Process.exec e) s m),
   Process.left_mem (Process.run h (Process.exec e) s m)) =
    final (run h (exec e) (s, m)).
Proof.
  destruct (process_exec_observed e) as [c Hc].
  destruct (exec_forwarded e) as [c' Hc'].
  rewrite Hc, Hc'; simpl.
  assert (Hcc : c = c').
  { specialize (Hc unit (fun _ st => (0, st)) tt (fun _ => 0)).
    specialize (Hc' unit (fun _ st => (0, st)) tt).
    destruct e; simpl in Hc, Hc';
      injection Hc as Hc; injection Hc' as Hc'; congruence. }
  subst c'; repeat split.
  destruct (snd (h c (s, m))); reflexivity.
Qed.

(** C8: the layer keeps no state.  Read as code of a process that has
    memory to keep state in, no entry point loads or stores a word: the
    memory after a call is the memory the kernel left.  So when the
    primitive's answer depends on the request alone, two calls with the
    same arguments return the same word, whatever code ran in between,
    whatever it and the kernel stored, and whatever the kernel state and
    the memory were at the start. *)
Theorem layer_keeps_no_state K (h : kernel (K * Process.mem)) :
  fixed_behaviour h ->
  forall (e : entry) B (between : Process.proc B) (s : K) (m : Process.mem),
    (let both :=
       Process.returned
         (Process.run h (Process.twice_around (Process.exec e) between) s m) in
     fst both = snd both) /\
    (forall s' m',
       Process.returned (Process.run h (Process.exec e) s m) =
       Process.returned (Process.run h (Process.exec e) s' m')) /\
    Process.accesses (Process.run h (Process.exec e) s m) = [] /\
    (exists c,
       Process.traps (Process.run h (Process.exec e) s m) = [c] /\
       Process.left_mem (Process.run h (Process.exec e) s m) =
         snd (snd (h c (s, m)))).
Proof.
  intros Hfix e B between s m.
  destruct (process_exec_observed e) as [c Hc].
  split; [| split; [| split]].
  - unfold Process.twice_around.
    rewrite process_run_bind; cbn zeta.
    rewrite process_run_bind; cbn zeta.
    rewrite process_run_bind; cbn zeta.
    rewrite !Hc; simpl.
    apply Hfix.
  - intros s' m'; rewrite !Hc; simpl; apply Hfix.
  - rewrite Hc; reflexivity.
  - exists c; rewrite Hc; split; reflexivity.
Qed.

(** Two equal writes around code that bumps a global, against a kernel
    that changes its state and the memory at every trap. *)
Lemma layer_keeps_no_state_witness :
  let both :=
    Process.returned
      (Process.run (Process.answering call_a2)
         (Process.twice_around (Process.exec (Write 1 65536 2))
            (Process.numbered 4096 42))
         0%nat (fun _ => 0)) in
  fst both = snd both.
Proof.
  assert (Hfix : fixed_behaviour (Process.answering call_a2))
    by (intros c s s'; reflexivity).
  exact (proj1 (layer_keeps_no_state Hfix (Write 1 65536 2)
                  (Process.numbered 4096 42) 0%nat (fun _ => 0))).
Defined.

(** The statement is about the code: the wrapper that numbers its
    requests is called twice with the same argument against a primitive
    of fixed behaviour, and returns two different words. *)
Lemma numbered_keeps_state :
  fixed_behaviour (Process.answering call_a0) /\
  Process.returned
    (Process.run (Process.answering call_a0)
       (Process.twice_around (Process.numbered 4096 42) (Process.Return tt))
       0%nat (fun _ => 0)) = (0, 1) /\
  Process.accesses
    (Process.run (Process.answering call_a0) (Process.numbered 4096 42)
       0%nat (fun _ => 0)) = [Process.Read 4096; Process.Written 4096 1].
Proof.
  split; [intros c s s'; reflexivity |].
  split; reflexivity.
Qed.

(** ** The conversions made by [write] *)

(** C9: [(long)count] reinterprets the 64 bits of [count] as a signed
    word: below [2^63] the word is [count], from [2^63] on it is
    [count - 2^64]; every bit is kept, and the word is what [write]
    puts in the count slot of its request, for every [count]. *)
Theorem write_count_reinterpreted (count : Z) :
  is_ulong count ->
  (count < 2 ^ 63 -> long_of_ulong count = count) /\
  (2 ^ 63 <= count -> long_of_ulong count = count - 2 ^ 64) /\
  bits long_bits (long_of_ulong count) = count /\
  (forall i, 0 <= i < long_bits ->
             Z.testbit (long_of_ulong count) i = Z.testbit count i) /\
  (forall (fd : Z) (buf : ptr) K (h : kernel K) s,
     map call_a2 (trace (run h (write fd buf count) s)) = [long_of_ulong count]).
Proof.
  intros Hcount.
  assert (Hw : 0 < long_bits) by reflexivity.
  assert (Hr := Hcount); destruct Hr as [Hlo Hhi].
  change (2 ^ long_bits) with (2 ^ 64) in Hhi.
  split; [| split; [| split; [| split]]].
  - intros Hsmall; apply to_signed_fits; [exact Hw |].
    unfold signed_range; change (2 ^ (long_bits - 1)) with (2 ^ 63); lia.
  - intros Hlarge; apply (to_signed_wraps Hw).
    change (2 ^ (long_bits - 1)) with (2 ^ 63).
    change (2 ^ long_bits) with (2 ^ 64); lia.
  - unfold long_of_ulong; rewrite bits_to_signed.
    apply bits_unsigned, Hcount.
  - intros i Hi; apply testbit_to_signed, Hi.
  - intros; rewrite run_write; reflexivity.
Qed.

(** The largest count, [2^64 - 1], goes to the kernel as the word [-1]. *)
Lemma write_count_reinterpreted_witness :
  long_of_ulong 18446744073709551615 = 18446744073709551615 - 2 ^ 64 /\
  map call_a2 (trace (run counting_kernel (write 1 65536 18446744073709551615) 0%nat))
    = [long_of_ulong 18446744073709551615].
Proof.
  assert (Hcount : is_ulong 18446744073709551615)
    by (unfold is_ulong, unsigned_range; simpl; lia).
  destruct (write_count_reinterpreted Hcount) as (_ & Hlarge & _ & _ & Htrap).
  split; [apply Hlarge; simpl; lia | apply Htrap].
Defined.

(** C10: [write] checks nothing.  For every [int fd] the first argument
    word is [fd] itself, its 64-bit pattern being the 32-bit pattern of
    [fd] sign-extended, and the request is made whatever [fd], [buf] and
    [count] are: [fd = -1] goes through as the word [-1], and a null
    [buf] as the word [0]. *)
Theorem write_validates_nothing (fd : Z) :
  is_int fd ->
  long_of_int fd = fd /\
  (forall i, 0 <= i < long_bits ->
             Z.testbit (bits long_bits (long_of_int fd)) i =
             Z.testbit (bits int_bits fd) (Z.min i (int_bits - 1))) /\
  (forall (buf : ptr) (count : Z) K (h : kernel K) s,
     trace (run h (write fd buf count) s) =
       [Call __NR_write fd (long_of_ptr buf) (long_of_ulong count) 0 0 0]) /\
  long_of_int (-1) = -1 /\
  long_of_ptr NULL = 0 /\
  (forall (count : Z) K (h : kernel K) s,
     trace (run h (write (-1) NULL count) s) =
       [Call __NR_write (-1) 0 (long_of_ulong count) 0 0 0] /\
     result (run h (write (-1) NULL count) s) =
       fst (h (Call __NR_write (-1) 0 (long_of_ulong count) 0 0 0) s)).
Proof.
  intros Hfd.
  split; [apply long_of_int_value, Hfd |].
  split; [intros i Hi; apply long_of_int_sign_extends; assumption |].
  split; [intros; rewrite run_write, (long_of_int_value Hfd); reflexivity |].
  split; [reflexivity |].
  split; [reflexivity |].
  intros; rewrite run_write; split; reflexivity.
Qed.

(** [write(-1, NULL, 0)] reaches the kernel as (__NR_write, -1, 0, 0, 0, 0, 0). *)
Lemma write_validates_nothing_witness :
  trace (run counting_kernel (write (-1) NULL 0) 0%nat) =
    [Call __NR_write (-1) (long_of_ptr NULL) (long_of_ulong 0) 0 0 0].
Proof.
  assert (Hfd : is_int (-1)) by (unfold is_int, signed_range; simpl; lia).
  destruct (write_validates_nothing Hfd) as (_ & _ & Htrap & _).
  apply Htrap.
Defined.


(** ** Further properties of the layer *)

Lemma is_long_zero : is_long 0.
Proof. unfold is_long, signed_range; simpl; lia. Qed.

Lemma is_long_to_signed z : is_long (to_signed long_bits z).
Proof. apply to_signed_range; reflexivity. Qed.

(** A 64-bit unsigned value is recovered from its signed reading. *)
Lemma bits_of_long_word z :
  unsigned_range long_bits z -> bits long_bits (to_signed long_bits z) = z.
Proof. intros Hz; rewrite bits_to_signed; apply bits_unsigned, Hz. Qed.

Lemma to_signed_unsigned_inj z z' :
  unsigned_range long_bits z -> unsigned_range long_bits z' ->
  to_signed long_bits z = to_signed long_bits z' -> z = z'.
Proof.
  intros Hz Hz' Heq.
  rewrite <- (bits_of_long_word Hz), <- (bits_of_long_word Hz'), Heq.
  reflexivity.
Qed.

(** Every entry point is a single trap followed by the return of its
    answer, as a program and as a run. *)
Lemma exec_single (e : entry) :
  exists c, first_request (exec e) = [c] /\
            forall K (h : kernel K) s, run h (exec e) s = forwarded h c s.
Proof.
  destruct e; simpl; eexists; split; try reflexivity; intros;
    unfold write, __syscall0, __syscall1, __syscall2,
      __syscall3, __syscall4, __syscall5;
    apply run_syscall6.
Qed.

(** X1: the shims of neighbouring arity meet exactly at zero.  A shim
    called with a last argument behaves, on every kernel, like the shim
    of one argument less iff that last argument is 0: a trailing zero
    cannot be told from an absent argument, anything else can. *)
Theorem shim_arities_meet_at_zero
  K (h : kernel K) (s : K) (n a0 a1 a2 a3 a4 : Z) :
  (run h (__syscall1 n a0) s = run h (__syscall0 n) s <-> a0 = 0) /\
  (run h (__syscall2 n a0 a1) s = run h (__syscall1 n a0) s <-> a1 = 0) /\
  (run h (__syscall3 n a0 a1 a2) s = run h (__syscall2 n a0 a1) s <-> a2 = 0) /\
  (run h (__syscall4 n a0 a1 a2 a3) s = run h (__syscall3 n a0 a1 a2) s <-> a3 = 0) /\
  (run h (__syscall5 n a0 a1 a2 a3 a4) s = run h (__syscall4 n a0 a1 a2 a3) s
     <-> a4 = 0).
Proof.
  unfold __syscall0, __syscall1, __syscall2, __syscall3, __syscall4, __syscall5.
  rewrite long_of_int_zero, !run_syscall6.
  unfold forwarded.
  repeat match goal with |- _ /\ _ => split end;
    (split; [intros Heq; apply (f_equal (@trace K Z)) in Heq; simpl in Heq;
             injection Heq; intros; assumption
            | intros ->; reflexivity]).
Qed.

(** X2: the conversions of [write] lose nothing.  Two calls of [write]
    with arguments of the parameter types that make the same request
    have the same [fd], the same [buf] and the same [count]. *)
Theorem write_request_determines_arguments
  (fd fd' : Z) (buf buf' : ptr) (count count' : Z) K (h : kernel K) (s : K) :
  well_typed (Write fd buf count) -> well_typed (Write fd' buf' count') ->
  trace (run h (write fd buf count) s) = trace (run h (write fd' buf' count') s) ->
  fd = fd' /\ buf = buf' /\ count = count'.
Proof.
  intros (Hfd & Hbuf & Hcount) (Hfd' & Hbuf' & Hcount').
  rewrite !run_write; simpl; intros Heq.
  injection Heq as Ha0 Ha1 Ha2.
  rewrite !long_of_int_value in Ha0 by assumption.
  split; [exact Ha0 |].
  split; [apply (to_signed_unsigned_inj Hbuf Hbuf' Ha1) |].
  apply (to_signed_unsigned_inj Hcount Hcount' Ha2).
Qed.

(** The hypotheses hold of [write(-1, buf, 2^63)] with [buf] at 0x10000,
    whose request has negative words in the [fd] and [count] slots. *)
Lemma write_request_determines_arguments_witness :
  well_typed (Write (-1) 65536 (2 ^ 63)) /\
  (-1 = -1 /\ 65536 = 65536 /\ 2 ^ 63 = 2 ^ 63).
Proof.
  assert (Hty : well_typed (Write (-1) 65536 (2 ^ 63))).
  { unfold well_typed, is_int, is_ptr, is_ulong, signed_range, unsigned_range.
    simpl; lia. }
  split; [exact Hty |].
  exact (@write_request_determines_arguments
           (-1) (-1) 65536 65536 (2 ^ 63) (2 ^ 63) nat counting_kernel 0%nat
           Hty Hty eq_refl).
Defined.

(** X3: the primitive is only ever handed [long]s.  When an entry point
    is called with arguments of its parameter types, each of the seven
    words of the request it makes lies in the range of [long]. *)
Theorem request_words_are_longs (e : entry) K (h : kernel K) (s : K) :
  well_typed e ->
  Forall (fun c => Forall is_long (call_words c)) (trace (run h (exec e) s)).
Proof.
  pose proof is_long_zero as H0.
  destruct e; intros Hty; simpl in Hty;
    unfold exec, write, __syscall0, __syscall1, __syscall2,
      __syscall3, __syscall4, __syscall5;
    rewrite run_syscall6, ?long_of_int_zero;
    unfold forwarded, call_words, call_args; simpl trace;
    (apply Forall_cons; [| apply Forall_nil]);
    repeat apply Forall_cons; try apply Forall_nil;
    cbn [call_n call_a0 call_a1 call_a2 call_a3 call_a4 call_a5];
    try exact H0; try tauto;
    apply is_long_to_signed.
Qed.

(** [write(-1, NULL, 2^64 - 1)]: every word of the request is a [long]. *)
Lemma request_words_are_longs_witness :
  Forall (fun c => Forall is_long (call_words c))
    (trace (run counting_kernel
              (exec (Write (-1) NULL 18446744073709551615)) 0%nat)).
Proof.
  apply request_words_are_longs.
  unfold well_typed, is_int, is_ptr, is_ulong, signed_range, unsigned_range, NULL.
  simpl; lia.
Defined.

(** X4: callers see the kernel through the layer unchanged.  Making a
    list of calls one after the other is the kernel answering their
    requests in that order: one request per call, each fixed by the
    arguments of its own call, none merged, dropped, repeated or moved,
    and the words returned are the kernel's answers, in order. *)
Theorem sequence_is_served_in_order (es : list entry) K (h : kernel K) (s : K) :
  run h (sequence es) s =
    Outcome (fst (serve h (requests es) s)) (snd (serve h (requests es) s))
            (requests es) /\
  length (requests es) = length es /\
  length (result (run h (sequence es) s)) = length es.
Proof.
  assert (Hlen : forall l, length (requests l) = length l).
  { induction l as [| e l IH]; [reflexivity |].
    unfold requests in *; simpl.
    destruct (exec_single e) as (c & Hc & _).
    rewrite Hc; simpl; rewrite IH; reflexivity. }
  assert (Hrun : forall l s0,
             run h (sequence l) s0 =
             Outcome (fst (serve h (requests l) s0))
                     (snd (serve h (requests l) s0)) (requests l)).
  { induction l as [| e l IH]; intros s0; [reflexivity |].
    destruct (exec_single e) as (c & Hc & Hr).
    simpl sequence.
    rewrite run_bind; cbn zeta.
    rewrite run_bind; cbn zeta.
    rewrite Hr, IH; simpl.
    rewrite app_nil_r.
    unfold requests; simpl; rewrite Hc; reflexivity. }
  split; [apply Hrun |].
  split; [apply Hlen |].
  rewrite Hrun; simpl.
  rewrite <- (Hlen es).
  generalize (requests es) s.
  induction l as [| c l IH]; intros s0; simpl; [reflexivity |].
  rewrite IH; reflexivity.
Qed.

(** X5: [(long)buf] on the two halves of the address space.  An address
    below [2^63] is passed as itself, an address from [2^63] on as the
    negative word [buf - 2^64]; so the word in the buffer slot of the
    request is negative exactly for the upper half. *)
Theorem write_buffer_word (buf : ptr) :
  is_ptr buf ->
  (buf < 2 ^ 63 -> long_of_ptr buf = buf) /\
  (2 ^ 63 <= buf -> long_of_ptr buf = buf - 2 ^ 64) /\
  (long_of_ptr buf < 0 <-> 2 ^ 63 <= buf) /\
  (forall (fd count : Z) K (h : kernel K) s,
     map call_a1 (trace (run h (write fd buf count) s)) = [long_of_ptr buf]).
Proof.
  intros Hbuf.
  assert (Hw : 0 < long_bits) by reflexivity.
  assert (Hr := Hbuf); destruct Hr as [Hlo Hhi].
  change (2 ^ long_bits) with (2 ^ 64) in Hhi.
  assert (Hsmall : buf < 2 ^ 63 -> long_of_ptr buf = buf).
  { intros Hs; apply to_signed_fits; [exact Hw |].
    unfold signed_range; change (2 ^ (long_bits - 1)) with (2 ^ 63); lia. }
  assert (Hlarge : 2 ^ 63 <= buf -> long_of_ptr buf = buf - 2 ^ 64).
  { intros Hl; apply (to_signed_wraps Hw).
    change (2 ^ (long_bits - 1)) with (2 ^ 63).
    change (2 ^ long_bits) with (2 ^ 64); lia. }
  split; [exact Hsmall |].
  split; [exact Hlarge |].
  split.
  - destruct (Z.lt_ge_cases buf (2 ^ 63)) as [Hs | Hl].
    + rewrite (Hsmall Hs); lia.
    + rewrite (Hlarge Hl); lia.
  - intros; rewrite run_write; reflexivity.
Qed.

(** The highest address, [2^64 - 1], is passed as the word [-1]. *)
Lemma write_buffer_word_witness :
  long_of_ptr 18446744073709551615 = 18446744073709551615 - 2 ^ 64.
Proof.
  assert (Hbuf : is_ptr 18446744073709551615)
    by (unfold is_ptr, unsigned_range; simpl; lia).
  destruct (write_buffer_word Hbuf) as (_ & Hlarge & _).
  apply Hlarge; simpl; lia.
Defined.

(** A write followed by a call of number 42, against the counting
    kernel: two requests in program order, two answers, two traps served. *)
Example sequence_write_then_syscall0 :
  run counting_kernel (sequence [Write 1 65536 2; Syscall0 42]) 0%nat =
  Outcome [2; 0] 2%nat [Call 0 1 65536 2 0 0 0; Call 42 0 0 0 0 0 0].
Proof. reflexivity. Qed.
